(** * Qt6-Redux-Store: the store, its reducer and its change signal

    A shallow embedding of [State.h], [Store.h] and [Store.cpp].

    - The state records and the action type are those of [State.h].
    - [Store] is the C++ object: its only data member is [m_state].
    - The member functions of [Store.cpp] mutate [m_state] in place, write
      to the debug console and emit a signal.  They are embedded in a state
      monad over [World]: the [Store] object together with the chronological
      list of the effects the outside can observe ([qDebug] lines and
      [stateChanged] emissions).
    - The program of [main.cpp] around the store (the singleton access,
      the [Sidebar] widget with its slot, the three buttons) is embedded in
      a second state monad over [Gui], which runs the store's member
      functions on the singleton. *)

From Stdlib Require Import String ZArith List.
From ExtLib Require Import Structures.Monad Structures.MonadState.
From ExtLib Require Import Data.Monads.StateMonad.
Import ListNotations.
Import MonadNotation.
Local Open Scope monad_scope.
Local Open Scope string_scope.
Local Open Scope list_scope.

(* ------------------------------------------------------------------ *)
(** ** State.h *)

(** [struct SidebarState], with its default member initialisers. *)
Module SidebarState.

Record t : Type := mk {
  activePage : string;
  headerComponent : string
}.

Definition init : t :=
  {| activePage := "chatList"; headerComponent := "ChatHeader" |}.

End SidebarState.

(** [struct UserProfileState], with its default member initialisers. *)
Module UserProfileState.

Record t : Type := mk {
  visible : bool;
  activePage : string
}.

Definition init : t :=
  {| visible := false; activePage := "UserProfile" |}.

End UserProfileState.

(** [struct AppState]: both slices, each default-initialised. *)
Record AppState : Type := mkAppState {
  sidebar : SidebarState.t;
  userProfile : UserProfileState.t
}.

Definition AppState_init : AppState :=
  {| sidebar := SidebarState.init; userProfile := UserProfileState.init |}.

(** [enum class ActionType]: the three enumerators, the only values an
    action can be built with short of a cast. *)
Inductive ActionType : Type :=
  | SidebarChangeActivePage
  | UserProfileShow
  | UserProfileHide.

(** [using ActionPayload = std::variant<std::monostate, std::string, bool, int>].
    The [int] alternative is only ever carried, never computed with, so its
    value is kept as an integer. *)
Inductive ActionPayload : Type :=
  | monostate
  | of_string (s : string)
  | of_bool (b : bool)
  | of_int (i : Z).

(** [struct Action]; the payload defaults to [std::monostate{}]. *)
Record Action : Type := mkAction {
  type : ActionType;
  payload : ActionPayload
}.

(** Brace initialisation with the payload left out, as in
    [{ActionType::UserProfileShow}]. *)
Definition Action_of_type (t : ActionType) : Action :=
  {| type := t; payload := monostate |}.

(** [std::get_if<std::string>(&payload)]: the held string when the variant
    holds the string alternative, a null pointer otherwise.  It never
    throws. *)
Definition get_if_string (p : ActionPayload) : option string :=
  match p with
  | of_string s => Some s
  | monostate | of_bool _ | of_int _ => None
  end.

(* ------------------------------------------------------------------ *)
(** ** Store.h *)

(** The data members of [class Store]. *)
Record Store : Type := mkStore {
  m_state : AppState
}.

(** What [qDebug() << ...] streams: string literals and [QString]s. *)
Inductive DebugArg : Type :=
  | Lit (s : string)
  | QStr (s : string).

(** [QString::fromStdString], as a debug-stream argument. *)
Definition fromStdString (s : string) : DebugArg := QStr s.

(** The effects of the store that are visible from outside it. *)
Inductive Event : Type :=
  | qDebug (line : list DebugArg)
  | stateChanged.

(** The store object and the effects performed so far, oldest first. *)
Record World : Type := mkWorld {
  store : Store;
  events : list Event
}.

(** Computations of the member functions. *)
Definition M : Type -> Type := state World.

(** Performs one observable effect. *)
Definition perform (e : Event) : M unit :=
  w <- get ;;
  put {| store := store w; events := events w ++ [e] |}.

(** Reads the member [m_state] of the store. *)
Definition read_m_state : M AppState :=
  w <- get ;;
  ret (m_state (store w)).

(** Assignment to a part of the member [m_state]. *)
Definition write_m_state (f : AppState -> AppState) : M unit :=
  w <- get ;;
  put {| store := {| m_state := f (m_state (store w)) |};
         events := events w |}.

(** [m_state.sidebar.activePage = v] *)
Definition set_sidebar_activePage (v : string) (st : AppState) : AppState :=
  {| sidebar :=
       {| SidebarState.activePage := v;
          SidebarState.headerComponent :=
            SidebarState.headerComponent (sidebar st) |};
     userProfile := userProfile st |}.

(** [m_state.userProfile.visible = v] *)
Definition set_userProfile_visible (v : bool) (st : AppState) : AppState :=
  {| sidebar := sidebar st;
     userProfile :=
       {| UserProfileState.visible := v;
          UserProfileState.activePage :=
            UserProfileState.activePage (userProfile st) |} |}.

(* ------------------------------------------------------------------ *)
(** ** Store.cpp *)

(** [Store::Store(QObject* parent) : QObject(parent) {}]: the member
    [m_state] is default-initialised. *)
Definition Store_new : Store := {| m_state := AppState_init |}.

(** The world right after the store has been constructed. *)
Definition World_new : World := {| store := Store_new; events := [] |}.

(** [void Store::reduce(const Action& action)] *)
Definition reduce (action : Action) : M unit :=
  match type action with
  | SidebarChangeActivePage =>
      match get_if_string (payload action) with
      | Some pageName =>
          write_m_state (set_sidebar_activePage pageName) ;;
          st <- read_m_state ;;
          perform (qDebug
            [Lit "State Changed: Sidebar active page is now";
             fromStdString (SidebarState.activePage (sidebar st))])
      | None => ret tt
      end
  | UserProfileShow =>
      write_m_state (set_userProfile_visible true) ;;
      perform (qDebug [Lit "State Changed: User profile is now visible"])
  | UserProfileHide =>
      write_m_state (set_userProfile_visible false) ;;
      perform (qDebug [Lit "State Changed: User profile is now hidden"])
  end.

(** [void Store::dispatch(const Action& action)] *)
Definition dispatch (action : Action) : M unit :=
  reduce action ;;
  perform stateChanged.

(** [const AppState& Store::getState() const] *)
Definition getState : M AppState := read_m_state.

(** Dispatching a sequence of actions, first to last. *)
Fixpoint dispatch_all (actions : list Action) : M unit :=
  match actions with
  | [] => ret tt
  | a :: rest => dispatch a ;; dispatch_all rest
  end.

(** The state held by the store of a world. *)
Definition state_of (w : World) : AppState := m_state (store w).

(** The world after running a computation. *)
Definition after {A : Type} (c : M A) (w : World) : World := execState c w.

(** The number of [stateChanged] emissions among some events. *)
Fixpoint emissions (es : list Event) : nat :=
  match es with
  | [] => 0
  | stateChanged :: rest => S (emissions rest)
  | qDebug _ :: rest => emissions rest
  end.

(* ------------------------------------------------------------------ *)
(** ** Store.cpp: the singleton, and main.cpp

    The program around the store: the function-local static behind
    [Store::instance()], the [Sidebar] widget whose slot is connected to
    [stateChanged], and the three buttons of [main].  Layout, styling and
    window set-up do not touch any of the data below and are left out. *)

(** A [QWidget*] kept by the sidebar: null, or the page built by
    [createHeavyPage] for a name. *)
Inductive QWidgetPtr : Type :=
  | nullptr
  | HeavyPage (name : string).

(** [QWidget* createHeavyPage(const QString& name)] *)
Definition createHeavyPage (name : string) : QWidgetPtr := HeavyPage name.

(** [std::map<std::string, QWidget*>]: the entries, in increasing key
    order; keys are compared with [operator<] only. *)
Definition PageMap : Type := list (string * QWidgetPtr).

(** [m.count(k)] *)
Fixpoint map_count (k : string) (m : PageMap) : nat :=
  match m with
  | [] => 0
  | (k', _) :: rest =>
      match String.compare k k' with
      | Eq => 1
      | Lt => 0
      | Gt => map_count k rest
      end
  end.

(** [m[k]]: the value at [k]; when [k] has no entry, a null one is inserted
    first.  Returns the value together with the map as it is afterwards. *)
Fixpoint map_subscript (k : string) (m : PageMap) : QWidgetPtr * PageMap :=
  match m with
  | [] => (nullptr, [(k, nullptr)])
  | (k', v') :: rest =>
      match String.compare k k' with
      | Eq => (v', m)
      | Lt => (nullptr, (k, nullptr) :: m)
      | Gt => let (v, rest') := map_subscript k rest in
              (v, (k', v') :: rest')
      end
  end.

(** [m[k] = v] *)
Fixpoint map_assign (k : string) (v : QWidgetPtr) (m : PageMap) : PageMap :=
  match m with
  | [] => [(k, v)]
  | (k', v') :: rest =>
      match String.compare k k' with
      | Eq => (k, v) :: rest
      | Lt => (k, v) :: m
      | Gt => (k', v') :: map_assign k v rest
      end
  end.

(** The calls a [QStackedWidget] receives from the sidebar. *)
Inductive StackedCall : Type :=
  | addWidget (page : QWidgetPtr)
  | setCurrentWidget (page : QWidgetPtr).

(** The data members of [class Sidebar].  The stacked widget is
    represented by the calls made on it, oldest first. *)
Record Sidebar : Type := mkSidebar {
  m_stackedWidget : list StackedCall;
  m_pageMap : PageMap;
  m_currentPage : string
}.

(** The slots that get connected to [Store::stateChanged]. *)
Inductive Slot : Type :=
  | Sidebar_onStateChanged.

(** The running program: the static [storeInstance] of [Store::instance]
    (absent until the first call), the debug console and signal history,
    the connections of [stateChanged] and the one [Sidebar] of [main]. *)
Record Gui : Type := mkGui {
  storeInstance : option Store;
  console : list Event;
  connections : list Slot;
  the_sidebar : Sidebar
}.

Definition G : Type -> Type := state Gui.

(** [Store& Store::instance()]: constructs the static on the first call. *)
Definition instance : G Store :=
  g <- get ;;
  match storeInstance g with
  | Some s => ret s
  | None =>
      put {| storeInstance := Some Store_new;
             console := console g;
             connections := connections g;
             the_sidebar := the_sidebar g |} ;;
      ret Store_new
  end.

(** [Store::instance().f(...)]: a member function of the store, run on the
    singleton. *)
Definition on_store {A : Type} (f : M A) : G A :=
  s <- instance ;;
  g <- get ;;
  let (x, w) := runState f {| store := s; events := console g |} in
  put {| storeInstance := Some (store w);
         console := events w;
         connections := connections g;
         the_sidebar := the_sidebar g |} ;;
  ret x.

(** [qDebug() << ...] outside the store. *)
Definition say (line : list DebugArg) : G unit :=
  g <- get ;;
  put {| storeInstance := storeInstance g;
         console := console g ++ [qDebug line];
         connections := connections g;
         the_sidebar := the_sidebar g |}.

(** The members of the sidebar, read and assigned. *)
Definition this : G Sidebar :=
  g <- get ;;
  ret (the_sidebar g).

Definition set_this (sb : Sidebar) : G unit :=
  g <- get ;;
  put {| storeInstance := storeInstance g;
         console := console g;
         connections := connections g;
         the_sidebar := sb |}.

(** A call on [m_stackedWidget]. *)
Definition stacked (c : StackedCall) : G unit :=
  sb <- this ;;
  set_this {| m_stackedWidget := m_stackedWidget sb ++ [c];
              m_pageMap := m_pageMap sb;
              m_currentPage := m_currentPage sb |}.

(** [void Sidebar::onStateChanged()] *)
Definition onStateChanged : G unit :=
  st <- on_store getState ;;
  let newPageName := SidebarState.activePage (sidebar st) in
  sb <- this ;;
  if negb (String.eqb newPageName (m_currentPage sb)) then
    say [Lit "Sidebar state CHANGED. Updating view to:";
         fromStdString newPageName] ;;
    set_this {| m_stackedWidget := m_stackedWidget sb;
                m_pageMap := m_pageMap sb;
                m_currentPage := newPageName |} ;;
    sb <- this ;;
    if Nat.ltb 0 (map_count (m_currentPage sb) (m_pageMap sb)) then
      let (page, pages) := map_subscript (m_currentPage sb) (m_pageMap sb) in
      set_this {| m_stackedWidget := m_stackedWidget sb;
                  m_pageMap := pages;
                  m_currentPage := m_currentPage sb |} ;;
      stacked (setCurrentWidget page)
    else ret tt
  else
    say [Lit "Sidebar state did NOT change. Ignoring signal."].

(** [m_pageMap[name] = createHeavyPage(name)] *)
Definition create_page (name : string) : G unit :=
  sb <- this ;;
  set_this {| m_stackedWidget := m_stackedWidget sb;
              m_pageMap := map_assign name (createHeavyPage name)
                             (m_pageMap sb);
              m_currentPage := m_currentPage sb |}.

(** [for (auto const& [name, widget] : m_pageMap) addWidget(widget)] *)
Fixpoint add_widgets (entries : PageMap) : G unit :=
  match entries with
  | [] => ret tt
  | (_, widget) :: rest => stacked (addWidget widget) ;; add_widgets rest
  end.

(** [connect(&Store::instance(), &Store::stateChanged, this, slot)] *)
Definition connect (slot : Slot) : G unit :=
  instance ;;
  g <- get ;;
  put {| storeInstance := storeInstance g;
         console := console g;
         connections := connections g ++ [slot];
         the_sidebar := the_sidebar g |}.

(** [Sidebar::Sidebar(QWidget* parent)], on a new object: [m_currentPage]
    starts empty, [m_pageMap] starts empty and the stacked widget is new. *)
Definition Sidebar_new : G unit :=
  set_this {| m_stackedWidget := []; m_pageMap := []; m_currentPage := "" |} ;;
  create_page "chatList" ;;
  create_page "filesSidebar" ;;
  create_page "bugSidebar" ;;
  sb <- this ;;
  add_widgets (m_pageMap sb) ;;
  connect Sidebar_onStateChanged ;;
  onStateChanged.

(** Running a connected slot. *)
Definition invoke (slot : Slot) : G unit :=
  match slot with
  | Sidebar_onStateChanged => onStateChanged
  end.

(** What [emit stateChanged()] does besides being observable: each
    connected slot runs, in connection order, before [emit] returns. *)
Fixpoint deliver (slots : list Slot) : G unit :=
  match slots with
  | [] => ret tt
  | slot :: rest => invoke slot ;; deliver rest
  end.

(** [Store::instance().dispatch(action)] in the running program.  The
    emission is the last statement of [dispatch], so the slots run right
    after the store's own part of the call. *)
Definition Store_dispatch (action : Action) : G unit :=
  on_store (dispatch action) ;;
  g <- get ;;
  deliver (connections g).

(** The three buttons of [main] and the lambdas connected to [clicked]. *)
Inductive Button : Type :=
  | toFilesButton
  | toBugsButton
  | showProfileButton.

Definition clicked (b : Button) : G unit :=
  match b with
  | toFilesButton =>
      Store_dispatch {| type := SidebarChangeActivePage;
                        payload := of_string "filesSidebar" |}
  | toBugsButton =>
      Store_dispatch {| type := SidebarChangeActivePage;
                        payload := of_string "bugSidebar" |}
  | showProfileButton =>
      Store_dispatch (Action_of_type UserProfileShow)
  end.

(** The event loop serving a sequence of clicks. *)
Fixpoint click_all (bs : list Button) : G unit :=
  match bs with
  | [] => ret tt
  | b :: rest => clicked b ;; click_all rest
  end.

(** The program before [main] has touched the store or built the sidebar. *)
Definition Gui_start : Gui :=
  {| storeInstance := None;
     console := [];
     connections := [];
     the_sidebar :=
       {| m_stackedWidget := []; m_pageMap := []; m_currentPage := "" |} |}.

(** [main]: the sidebar is built, then the clicks are served. *)
Definition main (bs : list Button) : G unit :=
  Sidebar_new ;;
  click_all bs.

(** The program after running a computation. *)
Definition gui_after {A : Type} (c : G A) (g : Gui) : Gui := execState c g.

(** The store as it is, or as the first call of [instance] will build it. *)
Definition store_of (g : Gui) : Store :=
  match storeInstance g with
  | Some s => s
  | None => Store_new
  end.

(** The page name the store currently holds. *)
Definition page_of (g : Gui) : string :=
  SidebarState.activePage (sidebar (m_state (store_of g))).

(** The widget of the latest [setCurrentWidget] call, if any. *)
Fixpoint shown (calls : list StackedCall) : option QWidgetPtr :=
  match calls with
  | [] => None
  | addWidget _ :: rest => shown rest
  | setCurrentWidget page :: rest =>
      match shown rest with
      | Some later => Some later
      | None => Some page
      end
  end.

(** The number of [setCurrentWidget] calls. *)
Fixpoint switches (calls : list StackedCall) : nat :=
  match calls with
  | [] => 0
  | addWidget _ :: rest => switches rest
  | setCurrentWidget _ :: rest => S (switches rest)
  end.

(** The map the sidebar's constructor builds: one page per name, in key
    order. *)
Definition Sidebar_pages : PageMap :=
  [("bugSidebar", HeavyPage "bugSidebar");
   ("chatList", HeavyPage "chatList");
   ("filesSidebar", HeavyPage "filesSidebar")].

(** The program once [main] has built the sidebar, before any click. *)
Definition Gui_ready : Gui := gui_after Sidebar_new Gui_start.

(** The program at the moment [stateChanged] is emitted, before any slot
    has run: the store's own part of [dispatch] is done. *)
Definition at_emission (action : Action) (g : Gui) : Gui :=
  gui_after (on_store (dispatch action)) g.

(** Whether a button is the profile button. *)
Definition is_showProfileButton (b : Button) : bool :=
  match b with
  | showProfileButton => true
  | toFilesButton | toBugsButton => false
  end.

(** The [userProfile.visible] flag the store currently holds. *)
Definition visible_of (g : Gui) : bool :=
  UserProfileState.visible (userProfile (m_state (store_of g))).

(** The constructor up to its last statement: the pages are built and
    added in key order, the store exists and the slot is connected; the
    slot has not run yet. *)
Definition before_first_sync (g : Gui) : Gui :=
  {| storeInstance := Some (store_of g);
     console := console g;
     connections := connections g ++ [Sidebar_onStateChanged];
     the_sidebar :=
       {| m_stackedWidget :=
            [addWidget (HeavyPage "bugSidebar");
             addWidget (HeavyPage "chatList");
             addWidget (HeavyPage "filesSidebar")];
          m_pageMap := Sidebar_pages;
          m_currentPage := "" |} |}.

(** The program as [main] keeps it between clicks: the sidebar's slot is
    the one connection, the page map is the constructor's, the store's
    page is one of its keys, the sidebar has seen it and the latest
    [setCurrentWidget] call selected its widget. *)
Definition ready (g : Gui) : Prop :=
  connections g = [Sidebar_onStateChanged]
  /\ m_pageMap (the_sidebar g) = Sidebar_pages
  /\ 0 < map_count (page_of g) Sidebar_pages
  /\ m_currentPage (the_sidebar g) = page_of g
  /\ shown (m_stackedWidget (the_sidebar g)) = Some (HeavyPage (page_of g)).

(** A [SidebarChangeActivePage] action carrying a page name. *)
Definition change_page (name : string) : Action :=
  {| type := SidebarChangeActivePage; payload := of_string name |}.

(** The action each button dispatches. *)
Definition action_of (b : Button) : Action :=
  match b with
  | toFilesButton => change_page "filesSidebar"
  | toBugsButton => change_page "bugSidebar"
  | showProfileButton => Action_of_type UserProfileShow
  end.

(** The buttons that change the sidebar's page. *)
Definition is_pageButton (b : Button) : bool :=
  negb (is_showProfileButton b).

(** A [UserProfileShow] ([true]) or [UserProfileHide] ([false]) action. *)
Definition profile_action (show : bool) (p : ActionPayload) : Action :=
  {| type := if show then UserProfileShow else UserProfileHide;
     payload := p |}.

(* ------------------------------------------------------------------ *)
(** ** Concrete runs *)

Example run_files_sidebar :
  runState (dispatch {| type := SidebarChangeActivePage;
                        payload := of_string "filesSidebar" |}) World_new
  = (tt,
     {| store := {| m_state :=
          {| sidebar := {| SidebarState.activePage := "filesSidebar";
                           SidebarState.headerComponent := "ChatHeader" |};
             userProfile := UserProfileState.init |} |};
        events :=
          [qDebug [Lit "State Changed: Sidebar active page is now";
                   QStr "filesSidebar"];
           stateChanged] |}).
Proof. reflexivity. Qed.

Example run_malformed :
  runState (dispatch {| type := SidebarChangeActivePage;
                        payload := of_bool true |}) World_new
  = (tt, {| store := Store_new; events := [stateChanged] |}).
Proof. reflexivity. Qed.

(* ------------------------------------------------------------------ *)
(** ** Run equations *)

Lemma run_perform (e : Event) (w : World) :
  runState (perform e) w
  = (tt, {| store := store w; events := events w ++ [e] |}).
Proof. reflexivity. Qed.

Lemma run_read_m_state (w : World) :
  runState read_m_state w = (state_of w, w).
Proof. reflexivity. Qed.

Lemma run_write_m_state (f : AppState -> AppState) (w : World) :
  runState (write_m_state f) w
  = (tt, {| store := {| m_state := f (state_of w) |}; events := events w |}).
Proof. reflexivity. Qed.

Lemma run_seq {A B : Type} (c : M A) (k : M B) (w : World) :
  runState (c ;; k) w = runState k (snd (runState c w)).
Proof.
  cbn. destruct (runState c w) as [x w1]. reflexivity.
Qed.

Lemma after_seq {A B : Type} (c : M A) (k : M B) (w : World) :
  after (c ;; k) w = after k (after c w).
Proof.
  unfold after, execState. rewrite run_seq. reflexivity.
Qed.

(** The reducer, case by case. *)

Lemma run_reduce_page (s : string) (w : World) :
  runState (reduce {| type := SidebarChangeActivePage;
                      payload := of_string s |}) w
  = (tt,
     {| store := {| m_state := set_sidebar_activePage s (state_of w) |};
        events := events w ++
          [qDebug [Lit "State Changed: Sidebar active page is now";
                   QStr s]] |}).
Proof. reflexivity. Qed.

Lemma run_reduce_page_no_string (p : ActionPayload) (w : World) :
  get_if_string p = None ->
  runState (reduce {| type := SidebarChangeActivePage; payload := p |}) w
  = (tt, w).
Proof.
  intros Hp. unfold reduce. cbn [type payload]. rewrite Hp. reflexivity.
Qed.

Lemma run_reduce_show (p : ActionPayload) (w : World) :
  runState (reduce {| type := UserProfileShow; payload := p |}) w
  = (tt,
     {| store := {| m_state := set_userProfile_visible true (state_of w) |};
        events := events w ++
          [qDebug [Lit "State Changed: User profile is now visible"]] |}).
Proof. reflexivity. Qed.

Lemma run_reduce_hide (p : ActionPayload) (w : World) :
  runState (reduce {| type := UserProfileHide; payload := p |}) w
  = (tt,
     {| store := {| m_state := set_userProfile_visible false (state_of w) |};
        events := events w ++
          [qDebug [Lit "State Changed: User profile is now hidden"]] |}).
Proof. reflexivity. Qed.

Lemma get_if_string_None (p : ActionPayload) :
  (forall s, p <> of_string s) -> get_if_string p = None.
Proof.
  destruct p as [ | s | b | i ]; intros Hp; try reflexivity.
  exfalso. apply (Hp s). reflexivity.
Qed.

(** Emitting the signal touches the event list only. *)
Lemma store_after_perform (e : Event) (w : World) :
  store (after (perform e) w) = store w.
Proof. reflexivity. Qed.

Lemma store_after_dispatch (a : Action) (w : World) :
  store (after (dispatch a) w) = store (after (reduce a) w).
Proof.
  unfold dispatch. rewrite after_seq. apply store_after_perform.
Qed.

Lemma state_after_dispatch (a : Action) (w : World) :
  state_of (after (dispatch a) w) = state_of (after (reduce a) w).
Proof.
  unfold state_of. rewrite store_after_dispatch. reflexivity.
Qed.

Lemma emissions_app (es fs : list Event) :
  emissions (es ++ fs) = emissions es + emissions fs.
Proof.
  induction es as [ | [line | ] es IH]; cbn; rewrite ?IH; reflexivity.
Qed.

(** What the reducer appends to the event list: debug lines only. *)
Definition reduce_log (a : Action) (w : World) : list Event :=
  skipn (length (events w)) (events (after (reduce a) w)).

Lemma skipn_length_app {A : Type} (l k : list A) :
  skipn (length l) (l ++ k) = k.
Proof.
  induction l as [ | x l IH]; cbn; [reflexivity | exact IH].
Qed.

Lemma skipn_length_self {A : Type} (l : list A) :
  skipn (length l) l = [].
Proof.
  induction l as [ | x l IH]; cbn; [reflexivity | exact IH].
Qed.

Lemma events_after_reduce (a : Action) (w : World) :
  events (after (reduce a) w) = events w ++ reduce_log a w
  /\ emissions (reduce_log a w) = 0.
Proof.
  unfold reduce_log.
  destruct a as [[ | | ] [ | s | b | i ]]; cbn;
    rewrite ?skipn_length_app, ?skipn_length_self, ?app_nil_r;
    split; reflexivity.
Qed.

(** The two fields that no case of the reducer assigns. *)
Definition constant_fields (st : AppState) : string * string :=
  (SidebarState.headerComponent (sidebar st),
   UserProfileState.activePage (userProfile st)).

Lemma constant_fields_reduce (a : Action) (w : World) :
  constant_fields (state_of (after (reduce a) w))
  = constant_fields (state_of w).
Proof.
  destruct a as [[ | | ] [ | s | b | i ]]; reflexivity.
Qed.

Lemma constant_fields_dispatch_all (actions : list Action) :
  forall w : World,
    constant_fields (state_of (after (dispatch_all actions) w))
    = constant_fields (state_of w).
Proof.
  induction actions as [ | a rest IH]; intros w.
  - reflexivity.
  - cbn [dispatch_all]. rewrite after_seq, IH, state_after_dispatch.
    apply constant_fields_reduce.
Qed.

Lemma getState_run_new :
  runState getState World_new = (AppState_init, World_new).
Proof. reflexivity. Qed.

(* ------------------------------------------------------------------ *)
(** ** Properties of the store *)

Section Dispatch.

Variable w : World.

(** C1. Dispatching a [SidebarChangeActivePage] action that carries the
    string [s] sets [sidebar.activePage] to [s] and leaves the whole
    [userProfile] slice as it was, field by field; with the payload
    ["filesSidebar"] the active page becomes ["filesSidebar"]. *)
Theorem change_active_page_sets_sidebar_only (s : string) :
  let a := {| type := SidebarChangeActivePage; payload := of_string s |} in
  let files := {| type := SidebarChangeActivePage;
                  payload := of_string "filesSidebar" |} in
  SidebarState.activePage (sidebar (state_of (after (dispatch a) w))) = s
  /\ userProfile (state_of (after (dispatch a) w)) = userProfile (state_of w)
  /\ UserProfileState.visible (userProfile (state_of (after (dispatch a) w)))
     = UserProfileState.visible (userProfile (state_of w))
  /\ UserProfileState.activePage
       (userProfile (state_of (after (dispatch a) w)))
     = UserProfileState.activePage (userProfile (state_of w))
  /\ SidebarState.activePage (sidebar (state_of (after (dispatch files) w)))
     = "filesSidebar".
Proof.
  intros a files. subst a files.
  rewrite !state_after_dispatch.
  unfold after, execState. rewrite !run_reduce_page.
  repeat split.
Qed.

(** C3. Dispatching a [SidebarChangeActivePage] action whose payload is not
    a string returns normally and leaves the store exactly as it was: the
    only effect of the call is the [stateChanged] emission. *)
Theorem malformed_payload_is_ignored (a : Action) :
  type a = SidebarChangeActivePage ->
  (forall s : string, payload a <> of_string s) ->
  runState (dispatch a) w
  = (tt, {| store := store w; events := events w ++ [stateChanged] |})
  /\ state_of (after (dispatch a) w) = state_of w
  /\ SidebarState.activePage (sidebar (state_of (after (dispatch a) w)))
     = SidebarState.activePage (sidebar (state_of w)).
Proof.
  intros Ht Hp. destruct a as [t p]. cbn [type payload] in Ht, Hp. subst t.
  assert (Hrun : runState
            (dispatch {| type := SidebarChangeActivePage; payload := p |}) w
          = (tt, {| store := store w;
                    events := events w ++ [stateChanged] |})).
  { unfold dispatch. rewrite run_seq.
    rewrite (run_reduce_page_no_string p w (get_if_string_None p Hp)).
    apply run_perform. }
  split; [exact Hrun | ].
  unfold after, execState. rewrite Hrun. split; reflexivity.
Qed.

(** C4. Whatever the payload, [UserProfileShow] sets [userProfile.visible]
    to [true] and [UserProfileHide] sets it to [false]; the sidebar slice
    and [userProfile.activePage] keep their values. *)
Theorem show_hide_set_visible_only (p : ActionPayload) :
  let show := {| type := UserProfileShow; payload := p |} in
  let hide := {| type := UserProfileHide; payload := p |} in
  (UserProfileState.visible (userProfile (state_of (after (dispatch show) w)))
     = true
   /\ sidebar (state_of (after (dispatch show) w)) = sidebar (state_of w)
   /\ UserProfileState.activePage
        (userProfile (state_of (after (dispatch show) w)))
      = UserProfileState.activePage (userProfile (state_of w)))
  /\
  (UserProfileState.visible (userProfile (state_of (after (dispatch hide) w)))
     = false
   /\ sidebar (state_of (after (dispatch hide) w)) = sidebar (state_of w)
   /\ UserProfileState.activePage
        (userProfile (state_of (after (dispatch hide) w)))
      = UserProfileState.activePage (userProfile (state_of w))).
Proof.
  intros show hide. subst show hide.
  rewrite !state_after_dispatch.
  unfold after, execState. rewrite run_reduce_show, run_reduce_hide.
  repeat split.
Qed.

(** C5. Every call of [dispatch] emits [stateChanged] exactly once: the
    events of the call are those of the reduction, none of which is an
    emission, followed by one [stateChanged] as the last effect before the
    call returns; the store then holds the reduced state.  Nothing depends
    on whether the reduction changed a field. *)
Theorem dispatch_emits_once (a : Action) :
  events (after (dispatch a) w)
  = events w ++ reduce_log a w ++ [stateChanged]
  /\ emissions (reduce_log a w) = 0
  /\ emissions (reduce_log a w ++ [stateChanged]) = 1
  /\ emissions (events (after (dispatch a) w)) = S (emissions (events w))
  /\ runState (dispatch a) w
     = runState (perform stateChanged) (after (reduce a) w)
  /\ store (after (dispatch a) w) = store (after (reduce a) w).
Proof.
  destruct (events_after_reduce a w) as [Hev Hnone].
  assert (Hrun : runState (dispatch a) w
                 = runState (perform stateChanged) (after (reduce a) w)).
  { unfold dispatch. rewrite run_seq. reflexivity. }
  assert (Hall : events (after (dispatch a) w)
                 = events w ++ reduce_log a w ++ [stateChanged]).
  { unfold after at 1. unfold execState. rewrite Hrun, run_perform.
    cbn [snd events]. rewrite Hev, <- app_assoc. reflexivity. }
  repeat split.
  - exact Hall.
  - exact Hnone.
  - rewrite emissions_app, Hnone. reflexivity.
  - rewrite Hall, !emissions_app, Hnone. cbn. rewrite Nat.add_comm.
    reflexivity.
  - exact Hrun.
  - apply store_after_dispatch.
Qed.

(** C6. [UserProfileShow] is idempotent on the state: after one dispatch
    and after a second one [userProfile.visible] is [true], and the second
    dispatch leaves the store as the first one left it. *)
Theorem show_twice_is_show_once (p q : ActionPayload) :
  let w1 := after (dispatch {| type := UserProfileShow; payload := p |}) w in
  let w2 := after (dispatch {| type := UserProfileShow; payload := q |}) w1 in
  UserProfileState.visible (userProfile (state_of w1)) = true
  /\ UserProfileState.visible (userProfile (state_of w2)) = true
  /\ state_of w2 = state_of w1
  /\ store w2 = store w1.
Proof.
  intros w1 w2. subst w1 w2.
  unfold state_of. rewrite !store_after_dispatch.
  unfold after, execState. rewrite !run_reduce_show.
  repeat split.
Qed.

(** C7. [getState] is a pure read: it returns the stored state and leaves
    the world untouched, so two calls in a row return equal values. *)
Theorem getState_is_pure_read :
  runState getState w = (state_of w, w)
  /\ after getState w = w
  /\ runState (x <- getState ;; y <- getState ;; ret (x, y)) w
     = ((state_of w, state_of w), w).
Proof.
  repeat split.
Qed.

End Dispatch.

(** C2. A freshly constructed store, before any dispatch, answers
    [getState] with every field at its default: the sidebar shows
    ["chatList"] under ["ChatHeader"], the user profile is hidden and its
    page is ["UserProfile"]. *)
Theorem fresh_store_has_defaults :
  let st := evalState getState World_new in
  SidebarState.activePage (sidebar st) = "chatList"
  /\ SidebarState.headerComponent (sidebar st) = "ChatHeader"
  /\ UserProfileState.visible (userProfile st) = false
  /\ UserProfileState.activePage (userProfile st) = "UserProfile"
  /\ st = {| sidebar := {| SidebarState.activePage := "chatList";
                           SidebarState.headerComponent := "ChatHeader" |};
             userProfile := {| UserProfileState.visible := false;
                               UserProfileState.activePage := "UserProfile" |}
          |}.
Proof.
  cbv zeta. unfold evalState. rewrite getState_run_new.
  repeat split.
Qed.

(** C8. The reducer is a function of the current state and the action
    alone: two runs that start from equal states with actions of equal type
    and payload end in equal states, whatever else differs between the two
    worlds. *)
Theorem reduce_deterministic (w1 w2 : World) (a1 a2 : Action) :
  state_of w1 = state_of w2 ->
  type a1 = type a2 ->
  payload a1 = payload a2 ->
  state_of (after (reduce a1) w1) = state_of (after (reduce a2) w2).
Proof.
  intros Hst Ht Hp.
  destruct a1 as [t1 p1], a2 as [t2 p2]. cbn [type payload] in Ht, Hp.
  subst t2 p2.
  destruct t1.
  - destruct p1 as [ | s | b | i ];
      unfold after, execState;
      rewrite ?run_reduce_page, ?run_reduce_page_no_string by reflexivity;
      cbn [snd state_of store m_state]; fold (state_of w1) (state_of w2);
      rewrite Hst; reflexivity.
  - unfold after, execState. rewrite !run_reduce_show.
    cbn [snd state_of store m_state]. rewrite Hst. reflexivity.
  - unfold after, execState. rewrite !run_reduce_hide.
    cbn [snd state_of store m_state]. rewrite Hst. reflexivity.
Qed.

(** C9. After any finite sequence of dispatches on a fresh store,
    [sidebar.headerComponent] is still ["ChatHeader"] and
    [userProfile.activePage] is still ["UserProfile"]. *)
Theorem header_and_profile_page_never_change (actions : list Action) :
  let st := state_of (after (dispatch_all actions) World_new) in
  SidebarState.headerComponent (sidebar st) = "ChatHeader"
  /\ UserProfileState.activePage (userProfile st) = "UserProfile".
Proof.
  cbv zeta.
  pose proof (constant_fields_dispatch_all actions World_new) as H.
  unfold constant_fields in H. cbn [state_of World_new store] in H.
  inversion H as [[Hheader Hpage]].
  split; reflexivity.
Qed.

(** C10. A sidebar page change and a profile show or hide commute: in
    either order the store ends in the same state. *)
Theorem page_change_commutes_with_show_hide
    (w : World) (s : string) (u : Action) :
  type u = UserProfileShow \/ type u = UserProfileHide ->
  let c := {| type := SidebarChangeActivePage; payload := of_string s |} in
  state_of (after (dispatch c ;; dispatch u) w)
  = state_of (after (dispatch u ;; dispatch c) w)
  /\ store (after (dispatch c ;; dispatch u) w)
     = store (after (dispatch u ;; dispatch c) w).
Proof.
  intros Hu c. subst c. destruct u as [t p]. cbn [type] in Hu.
  unfold state_of. rewrite !after_seq, !store_after_dispatch.
  destruct Hu as [Ht | Ht]; subst t;
    unfold after, execState;
    rewrite ?run_reduce_page, ?run_reduce_show, ?run_reduce_hide;
    split; reflexivity.
Qed.

(* ------------------------------------------------------------------ *)
(** ** Instances at concrete inputs *)

(** The action [{SidebarChangeActivePage, true}] on a fresh store. *)
Lemma malformed_payload_is_ignored_bool :
  let a := {| type := SidebarChangeActivePage; payload := of_bool true |} in
  type a = SidebarChangeActivePage
  /\ (forall s : string, payload a <> of_string s)
  /\ runState (dispatch a) World_new
     = (tt, {| store := Store_new; events := [stateChanged] |})
  /\ state_of (after (dispatch a) World_new) = AppState_init
  /\ SidebarState.activePage (sidebar (state_of (after (dispatch a) World_new)))
     = "chatList".
Proof.
  cbv zeta.
  assert (Hp : forall s : string, of_bool true <> of_string s)
    by (intros s; discriminate).
  split; [reflexivity | split; [exact Hp | ]].
  exact (malformed_payload_is_ignored World_new
           {| type := SidebarChangeActivePage; payload := of_bool true |}
           eq_refl Hp).
Defined.

(** Two worlds with the same stored state and different histories. *)
Lemma reduce_deterministic_bugs :
  let w1 := World_new in
  let w2 := {| store := Store_new;
               events := [qDebug [Lit "earlier"]; stateChanged] |} in
  let a := {| type := SidebarChangeActivePage;
              payload := of_string "bugSidebar" |} in
  state_of w1 = state_of w2
  /\ type a = type a
  /\ payload a = payload a
  /\ state_of (after (reduce a) w1) = state_of (after (reduce a) w2).
Proof.
  cbv zeta.
  split; [reflexivity | split; [reflexivity | split; [reflexivity | ]]].
  apply reduce_deterministic; reflexivity.
Defined.

(** A page change and [{UserProfileShow}] on a fresh store. *)
Lemma page_change_commutes_with_show :
  let u := Action_of_type UserProfileShow in
  let c := {| type := SidebarChangeActivePage;
              payload := of_string "filesSidebar" |} in
  (type u = UserProfileShow \/ type u = UserProfileHide)
  /\ state_of (after (dispatch c ;; dispatch u) World_new)
     = state_of (after (dispatch u ;; dispatch c) World_new)
  /\ store (after (dispatch c ;; dispatch u) World_new)
     = store (after (dispatch u ;; dispatch c) World_new).
Proof.
  cbv zeta.
  split; [left; reflexivity | ].
  apply (page_change_commutes_with_show_hide World_new "filesSidebar"
           (Action_of_type UserProfileShow)).
  left. reflexivity.
Defined.

(* ------------------------------------------------------------------ *)
(** ** The program around the store: run equations *)

Lemma g_run_seq {A B : Type} (c : G A) (k : G B) (g : Gui) :
  runState (c ;; k) g = runState k (snd (runState c g)).
Proof.
  cbn. destruct (runState c g) as [x g1]. reflexivity.
Qed.

Lemma gui_after_seq {A B : Type} (c : G A) (k : G B) (g : Gui) :
  gui_after (c ;; k) g = gui_after k (gui_after c g).
Proof.
  unfold gui_after, execState. rewrite g_run_seq. reflexivity.
Qed.

(** A member call on the singleton runs on the store as it is (or as a
    first access builds it) and leaves the store constructed. *)
Lemma run_on_store {A : Type} (f : M A) (g : Gui) :
  runState (on_store f) g
  = (fst (runState f {| store := store_of g; events := console g |}),
     {| storeInstance :=
          Some (store (after f {| store := store_of g;
                                  events := console g |}));
        console := events (after f {| store := store_of g;
                                      events := console g |});
        connections := connections g;
        the_sidebar := the_sidebar g |}).
Proof.
  unfold on_store, instance, store_of, after, execState.
  destruct g as [[s | ] out conns sb]; cbn;
    match goal with
    | |- context [runState f ?w] => destruct (runState f w) as [x w1]
    end; reflexivity.
Qed.

(** Key comparison: being equal as keys is being the same string. *)
Lemma compare_same (k : string) : String.compare k k = Eq.
Proof.
  destruct (String.compare k k) eqn:Hc; [reflexivity | | ];
    pose proof (String.compare_antisym k k) as Ha;
    rewrite Hc in Ha; discriminate Ha.
Qed.

(** [m[k]] on a key that [count] finds returns an entry of the map and
    inserts nothing. *)
Lemma map_subscript_counted (k : string) (m : PageMap) :
  0 < map_count k m ->
  snd (map_subscript k m) = m /\ In (k, fst (map_subscript k m)) m.
Proof.
  induction m as [ | [k' v'] rest IH]; cbn [map_count map_subscript].
  - intros H. inversion H.
  - destruct (String.compare k k') eqn:Hc; intros H.
    + apply String.compare_eq_iff in Hc. subst k'.
      split; [reflexivity | left; reflexivity].
    + inversion H.
    + destruct (IH H) as [Hsnd Hin].
      destruct (map_subscript k rest) as [v rest'].
      cbn [fst snd] in *. subst rest'.
      split; [reflexivity | right; exact Hin].
Qed.

(** The slot, when the page it last saw is the page of the store. *)
Lemma run_onStateChanged_same (g : Gui) :
  m_currentPage (the_sidebar g) = page_of g ->
  runState onStateChanged g
  = (tt,
     {| storeInstance := Some (store_of g);
        console := console g ++
          [qDebug [Lit "Sidebar state did NOT change. Ignoring signal."]];
        connections := connections g;
        the_sidebar := the_sidebar g |}).
Proof.
  unfold page_of, store_of. intros Hsame.
  destruct g as [[s | ] out conns sb];
    cbn -[String.eqb] in Hsame |- *;
    rewrite Hsame, String.eqb_refl; reflexivity.
Qed.

(** The slot, when the store holds another page. *)
Lemma run_onStateChanged_other (g : Gui) :
  m_currentPage (the_sidebar g) <> page_of g ->
  runState onStateChanged g
  = (tt,
     {| storeInstance := Some (store_of g);
        console := console g ++
          [qDebug [Lit "Sidebar state CHANGED. Updating view to:";
                   QStr (page_of g)]];
        connections := connections g;
        the_sidebar :=
          if Nat.ltb 0 (map_count (page_of g) (m_pageMap (the_sidebar g)))
          then
            {| m_stackedWidget :=
                 m_stackedWidget (the_sidebar g) ++
                 [setCurrentWidget
                    (fst (map_subscript (page_of g)
                            (m_pageMap (the_sidebar g))))];
               m_pageMap :=
                 snd (map_subscript (page_of g) (m_pageMap (the_sidebar g)));
               m_currentPage := page_of g |}
          else
            {| m_stackedWidget := m_stackedWidget (the_sidebar g);
               m_pageMap := m_pageMap (the_sidebar g);
               m_currentPage := page_of g |} |}).
Proof.
  unfold page_of, store_of. intros Hother.
  apply not_eq_sym in Hother. apply String.eqb_neq in Hother.
  destruct g as [[s | ] out conns sb];
    cbn -[String.eqb Nat.ltb map_count map_subscript] in Hother |- *;
    rewrite Hother; cbn -[String.eqb Nat.ltb map_count map_subscript];
    match goal with
    | |- context [Nat.ltb 0 ?n] => destruct (Nat.ltb 0 n)
    end;
    try match goal with
    | |- context [map_subscript ?k ?m] =>
        destruct (map_subscript k m) as [page pages]
    end; reflexivity.
Qed.

Lemma shown_snoc (calls : list StackedCall) (page : QWidgetPtr) :
  shown (calls ++ [setCurrentWidget page]) = Some page.
Proof.
  induction calls as [ | [p | p] calls IH]; cbn; rewrite ?IH; reflexivity.
Qed.

Lemma switches_snoc (calls : list StackedCall) (page : QWidgetPtr) :
  switches (calls ++ [setCurrentWidget page]) = S (switches calls).
Proof.
  induction calls as [ | [p | p] calls IH]; cbn; rewrite ?IH; reflexivity.
Qed.

(** The slot never changes what the store holds. *)
Lemma store_of_onStateChanged (g : Gui) :
  store_of (gui_after onStateChanged g) = store_of g.
Proof.
  unfold gui_after, execState.
  destruct (string_dec (m_currentPage (the_sidebar g)) (page_of g)) as [E | N].
  - rewrite (run_onStateChanged_same g E). reflexivity.
  - rewrite (run_onStateChanged_other g N). reflexivity.
Qed.

Lemma page_of_onStateChanged (g : Gui) :
  page_of (gui_after onStateChanged g) = page_of g.
Proof.
  unfold page_of. rewrite store_of_onStateChanged. reflexivity.
Qed.

Lemma currentPage_onStateChanged (g : Gui) :
  m_currentPage (the_sidebar (gui_after onStateChanged g)) = page_of g.
Proof.
  unfold gui_after, execState.
  destruct (string_dec (m_currentPage (the_sidebar g)) (page_of g)) as [E | N].
  - rewrite (run_onStateChanged_same g E). exact E.
  - rewrite (run_onStateChanged_other g N). cbn [snd the_sidebar].
    destruct (Nat.ltb 0 _); reflexivity.
Qed.

Lemma onStateChanged_keeps_pageMap_aux (g : Gui) :
  m_pageMap (the_sidebar (gui_after onStateChanged g))
  = m_pageMap (the_sidebar g).
Proof.
  unfold gui_after, execState.
  destruct (string_dec (m_currentPage (the_sidebar g)) (page_of g)) as [E | N].
  - rewrite (run_onStateChanged_same g E). reflexivity.
  - rewrite (run_onStateChanged_other g N). cbn [snd the_sidebar].
    destruct (Nat.ltb 0 (map_count (page_of g) (m_pageMap (the_sidebar g))))
      eqn:Hc; cbn [m_pageMap]; [ | reflexivity].
    apply Nat.ltb_lt in Hc.
    apply (map_subscript_counted _ _ Hc).
Qed.

(* ------------------------------------------------------------------ *)
(** ** Properties of the singleton and of the sidebar's slot *)

(** X1. Member calls made through [Store::instance()] act on one and the
    same store: two calls in a row are one computation on that store, so
    the second sees what the first left, and nothing is ever reset. *)
Theorem instance_is_one_store {A B : Type} (f : M A) (h : M B) (g : Gui) :
  runState (on_store f ;; on_store h) g = runState (on_store (f ;; h)) g.
Proof.
  rewrite g_run_seq, !run_on_store. cbn [snd fst store_of storeInstance
    console connections the_sidebar].
  unfold after, execState. rewrite run_seq.
  destruct (runState f {| store := store_of g; events := console g |})
    as [x [s1 out1]].
  reflexivity.
Qed.

(** X2. When the store's active page is the page the sidebar last saw,
    the slot leaves the sidebar object untouched, makes no call on the
    stacked widget, leaves the store alone and only writes its
    "did NOT change" line. *)
Theorem onStateChanged_ignores_same_page (g : Gui) :
  m_currentPage (the_sidebar g) = page_of g ->
  the_sidebar (gui_after onStateChanged g) = the_sidebar g
  /\ switches (m_stackedWidget (the_sidebar (gui_after onStateChanged g)))
     = switches (m_stackedWidget (the_sidebar g))
  /\ store_of (gui_after onStateChanged g) = store_of g
  /\ console (gui_after onStateChanged g)
     = console g ++
       [qDebug [Lit "Sidebar state did NOT change. Ignoring signal."]].
Proof.
  intros E. unfold gui_after, execState.
  rewrite (run_onStateChanged_same g E). repeat split.
Qed.

(** X3. After the slot has run, whatever the program looked like before,
    the sidebar's [m_currentPage] is the store's active page, and the
    store holds what it held. *)
Theorem onStateChanged_syncs (g : Gui) :
  m_currentPage (the_sidebar (gui_after onStateChanged g))
  = page_of (gui_after onStateChanged g)
  /\ page_of (gui_after onStateChanged g) = page_of g
  /\ store_of (gui_after onStateChanged g) = store_of g.
Proof.
  rewrite page_of_onStateChanged, currentPage_onStateChanged,
    store_of_onStateChanged.
  repeat split.
Qed.

(** X4. The slot never changes [m_pageMap]: the subscript is only reached
    for a key that [count] found, so no null entry is ever inserted, not
    even for a page name the sidebar has no page for. *)
Theorem onStateChanged_keeps_pageMap (g : Gui) :
  m_pageMap (the_sidebar (gui_after onStateChanged g))
  = m_pageMap (the_sidebar g).
Proof.
  apply onStateChanged_keeps_pageMap_aux.
Qed.

(** X5. When the store moves to a page that is a key of [m_pageMap], the
    slot makes exactly one call on the stacked widget: [setCurrentWidget]
    with the widget stored under that key. *)
Theorem onStateChanged_switches_to_known_page (g : Gui) :
  m_currentPage (the_sidebar g) <> page_of g ->
  0 < map_count (page_of g) (m_pageMap (the_sidebar g)) ->
  exists page : QWidgetPtr,
    In (page_of g, page) (m_pageMap (the_sidebar g))
    /\ m_stackedWidget (the_sidebar (gui_after onStateChanged g))
       = m_stackedWidget (the_sidebar g) ++ [setCurrentWidget page]
    /\ shown (m_stackedWidget (the_sidebar (gui_after onStateChanged g)))
       = Some page
    /\ switches (m_stackedWidget (the_sidebar (gui_after onStateChanged g)))
       = S (switches (m_stackedWidget (the_sidebar g))).
Proof.
  intros N Hc.
  exists (fst (map_subscript (page_of g) (m_pageMap (the_sidebar g)))).
  split; [apply (map_subscript_counted _ _ Hc) | ].
  unfold gui_after, execState.
  rewrite (run_onStateChanged_other g N). cbn [snd the_sidebar].
  apply Nat.ltb_lt in Hc. rewrite Hc. cbn [m_stackedWidget].
  rewrite shown_snoc, switches_snoc. repeat split.
Qed.

(** X6. When the store moves to a page name that is no key of
    [m_pageMap], the slot records the new name in [m_currentPage] but makes
    no call on the stacked widget: the view stays on the page it showed. *)
Theorem onStateChanged_unknown_page (g : Gui) :
  m_currentPage (the_sidebar g) <> page_of g ->
  map_count (page_of g) (m_pageMap (the_sidebar g)) = 0 ->
  m_stackedWidget (the_sidebar (gui_after onStateChanged g))
  = m_stackedWidget (the_sidebar g)
  /\ m_currentPage (the_sidebar (gui_after onStateChanged g)) = page_of g
  /\ m_pageMap (the_sidebar (gui_after onStateChanged g))
     = m_pageMap (the_sidebar g).
Proof.
  intros N Hc. unfold gui_after, execState.
  rewrite (run_onStateChanged_other g N). cbn [snd the_sidebar].
  rewrite Hc. repeat split.
Qed.

(** X7. Running the slot again without a dispatch in between does
    nothing more to the sidebar: the second run finds the page
    unchanged. *)
Theorem onStateChanged_twice (g : Gui) :
  the_sidebar (gui_after (onStateChanged ;; onStateChanged) g)
  = the_sidebar (gui_after onStateChanged g).
Proof.
  rewrite gui_after_seq.
  unfold gui_after at 1. unfold execState.
  rewrite run_onStateChanged_same.
  - reflexivity.
  - rewrite currentPage_onStateChanged, page_of_onStateChanged. reflexivity.
Qed.

(* ------------------------------------------------------------------ *)
(** ** The sidebar's constructor and the program of [main] *)

Lemma gui_after_Sidebar_new (g : Gui) :
  gui_after Sidebar_new g = gui_after onStateChanged (before_first_sync g).
Proof.
  unfold gui_after, execState, Sidebar_new, before_first_sync, store_of.
  destruct g as [[s | ] out conns sb]; cbn -[onStateChanged]; reflexivity.
Qed.

(** The widget stored under a key of the constructor's map is the page
    built for that key. *)
Lemma Sidebar_pages_entry (k : string) (page : QWidgetPtr) :
  In (k, page) Sidebar_pages -> page = HeavyPage k.
Proof.
  unfold Sidebar_pages. cbn [In].
  intros [H | [H | [H | []]]]; inversion H; reflexivity.
Qed.

Lemma Sidebar_pages_subscript (k : string) :
  0 < map_count k Sidebar_pages ->
  map_subscript k Sidebar_pages = (HeavyPage k, Sidebar_pages).
Proof.
  intros Hc. destruct (map_subscript_counted k Sidebar_pages Hc) as [Hs Hin].
  apply Sidebar_pages_entry in Hin.
  destruct (map_subscript k Sidebar_pages) as [v m]. cbn [fst snd] in *.
  subst. reflexivity.
Qed.

Lemma Sidebar_pages_not_empty_key : map_count "" Sidebar_pages = 0.
Proof. reflexivity. Qed.

(** With the one connection of the program, a dispatch is the store's
    part followed by the sidebar's slot. *)
Lemma gui_after_Store_dispatch (a : Action) (g : Gui) :
  connections g = [Sidebar_onStateChanged] ->
  gui_after (Store_dispatch a) g = gui_after onStateChanged (at_emission a g).
Proof.
  intros Hc. unfold Store_dispatch, at_emission.
  rewrite gui_after_seq.
  set (g1 := gui_after (on_store (dispatch a)) g).
  assert (Hc1 : connections g1 = [Sidebar_onStateChanged]).
  { subst g1. unfold gui_after, execState. rewrite run_on_store. exact Hc. }
  unfold gui_after at 1. unfold execState.
  cbn -[onStateChanged]. rewrite Hc1. cbn -[onStateChanged].
  unfold gui_after, execState.
  destruct (runState onStateChanged g1) as [[] g2]. reflexivity.
Qed.

Lemma store_of_at_emission (a : Action) (g : Gui) :
  store_of (at_emission a g)
  = store (after (dispatch a) {| store := store_of g; events := console g |}).
Proof.
  unfold at_emission, gui_after, execState. rewrite run_on_store. reflexivity.
Qed.

Lemma at_emission_frame (a : Action) (g : Gui) :
  the_sidebar (at_emission a g) = the_sidebar g
  /\ connections (at_emission a g) = connections g.
Proof.
  unfold at_emission, gui_after, execState. rewrite run_on_store.
  split; reflexivity.
Qed.

Lemma page_of_before_first_sync (g : Gui) :
  page_of (before_first_sync g) = page_of g.
Proof. reflexivity. Qed.

Lemma emissions_onStateChanged (g : Gui) :
  emissions (console (gui_after onStateChanged g)) = emissions (console g).
Proof.
  unfold gui_after, execState.
  destruct (string_dec (m_currentPage (the_sidebar g)) (page_of g)) as [E | N].
  - rewrite (run_onStateChanged_same g E). cbn [snd console].
    rewrite emissions_app. cbn. apply Nat.add_0_r.
  - rewrite (run_onStateChanged_other g N). cbn [snd console].
    rewrite emissions_app. cbn. apply Nat.add_0_r.
Qed.

Lemma connections_onStateChanged (g : Gui) :
  connections (gui_after onStateChanged g) = connections g.
Proof.
  unfold gui_after, execState.
  destruct (string_dec (m_currentPage (the_sidebar g)) (page_of g)) as [E | N].
  - rewrite (run_onStateChanged_same g E). reflexivity.
  - rewrite (run_onStateChanged_other g N). reflexivity.
Qed.

Lemma emissions_at_emission (a : Action) (g : Gui) :
  emissions (console (at_emission a g)) = S (emissions (console g)).
Proof.
  unfold at_emission, gui_after, execState. rewrite run_on_store.
  cbn [snd console].
  set (w := {| store := store_of g; events := console g |}).
  unfold dispatch. rewrite after_seq.
  unfold after at 1. unfold execState. rewrite run_perform.
  cbn [snd events].
  destruct (events_after_reduce a w) as [Hev Hnone].
  rewrite Hev, !emissions_app, Hnone. cbn. rewrite !Nat.add_0_r.
  rewrite Nat.add_1_r. reflexivity.
Qed.

(** What the store holds at the emission, action by action. *)
Lemma page_of_at_emission_page (s : string) (g : Gui) :
  page_of (at_emission (change_page s) g) = s
  /\ visible_of (at_emission (change_page s) g) = visible_of g.
Proof.
  unfold page_of, visible_of. rewrite store_of_at_emission.
  rewrite store_after_dispatch. split; reflexivity.
Qed.

Lemma page_of_at_emission_profile (u : Action) (g : Gui) :
  type u = UserProfileShow \/ type u = UserProfileHide ->
  page_of (at_emission u g) = page_of g.
Proof.
  unfold page_of. rewrite store_of_at_emission, store_after_dispatch.
  destruct u as [t p]. cbn [type]. intros [Ht | Ht]; subst t; reflexivity.
Qed.

Lemma visible_of_at_emission_show (p : ActionPayload) (g : Gui) :
  visible_of (at_emission {| type := UserProfileShow; payload := p |} g)
  = true.
Proof.
  unfold visible_of. rewrite store_of_at_emission, store_after_dispatch.
  reflexivity.
Qed.

(** The sidebar after its slot has run on a program whose page map is the
    constructor's and whose store holds one of its keys. *)
Lemma onStateChanged_on_pages (g : Gui) :
  m_pageMap (the_sidebar g) = Sidebar_pages ->
  0 < map_count (page_of g) Sidebar_pages ->
  the_sidebar (gui_after onStateChanged g)
  = if String.eqb (page_of g) (m_currentPage (the_sidebar g))
    then the_sidebar g
    else {| m_stackedWidget :=
              m_stackedWidget (the_sidebar g) ++
              [setCurrentWidget (HeavyPage (page_of g))];
            m_pageMap := Sidebar_pages;
            m_currentPage := page_of g |}.
Proof.
  intros Hm Hc. unfold gui_after, execState.
  destruct (String.eqb_spec (page_of g) (m_currentPage (the_sidebar g)))
    as [E | N].
  - rewrite (run_onStateChanged_same g (eq_sym E)). reflexivity.
  - rewrite (run_onStateChanged_other g (not_eq_sym N)).
    cbn [snd the_sidebar]. rewrite Hm.
    rewrite (proj2 (Nat.ltb_lt _ _) Hc).
    rewrite (Sidebar_pages_subscript _ Hc). reflexivity.
Qed.

Lemma ready_after_slot (g : Gui) :
  connections g = [Sidebar_onStateChanged] ->
  m_pageMap (the_sidebar g) = Sidebar_pages ->
  0 < map_count (page_of g) Sidebar_pages ->
  (m_currentPage (the_sidebar g) = page_of g ->
   shown (m_stackedWidget (the_sidebar g)) = Some (HeavyPage (page_of g))) ->
  ready (gui_after onStateChanged g).
Proof.
  intros Hconn Hm Hc Hshown. unfold ready.
  rewrite connections_onStateChanged, page_of_onStateChanged.
  rewrite (onStateChanged_on_pages g Hm Hc).
  destruct (String.eqb_spec (page_of g) (m_currentPage (the_sidebar g)))
    as [E | N].
  - repeat split; auto.
  - cbn [m_stackedWidget m_pageMap m_currentPage]. rewrite shown_snoc.
    repeat split; auto.
Qed.

Lemma page_of_at_emission_cases (a : Action) (g : Gui) :
  page_of (at_emission a g) = page_of g
  \/ exists s, a = change_page s /\ page_of (at_emission a g) = s.
Proof.
  destruct a as [[ | | ] p].
  - destruct p as [ | s | b | i ];
      try (left; unfold page_of;
           rewrite store_of_at_emission, store_after_dispatch;
           reflexivity).
    right. exists s. split; [reflexivity | ].
    apply (page_of_at_emission_page s g).
  - left. apply page_of_at_emission_profile. left. reflexivity.
  - left. apply page_of_at_emission_profile. right. reflexivity.
Qed.

Lemma page_of_Store_dispatch (a : Action) (g : Gui) :
  connections g = [Sidebar_onStateChanged] ->
  page_of (gui_after (Store_dispatch a) g) = page_of (at_emission a g)
  /\ visible_of (gui_after (Store_dispatch a) g)
     = visible_of (at_emission a g)
  /\ connections (gui_after (Store_dispatch a) g) = [Sidebar_onStateChanged]
  /\ m_currentPage (the_sidebar (gui_after (Store_dispatch a) g))
     = page_of (at_emission a g)
  /\ emissions (console (gui_after (Store_dispatch a) g))
     = S (emissions (console g)).
Proof.
  intros Hc. rewrite (gui_after_Store_dispatch a g Hc).
  unfold visible_of.
  rewrite page_of_onStateChanged, store_of_onStateChanged,
    connections_onStateChanged, currentPage_onStateChanged,
    emissions_onStateChanged, emissions_at_emission.
  rewrite (proj2 (at_emission_frame a g)).
  repeat split. exact Hc.
Qed.

Lemma ready_Store_dispatch (a : Action) (g : Gui) :
  ready g ->
  0 < map_count (page_of (at_emission a g)) Sidebar_pages ->
  ready (gui_after (Store_dispatch a) g).
Proof.
  intros (Hconn & Hm & Hk & Hcur & Hshown) Hk1.
  rewrite (gui_after_Store_dispatch a g Hconn).
  destruct (at_emission_frame a g) as [Hsb Hconn1].
  apply ready_after_slot.
  - rewrite Hconn1. exact Hconn.
  - rewrite Hsb. exact Hm.
  - exact Hk1.
  - rewrite Hsb, Hcur. intros E. rewrite Hshown, E. reflexivity.
Qed.

Lemma sidebar_after_Store_dispatch (a : Action) (g : Gui) :
  ready g ->
  0 < map_count (page_of (at_emission a g)) Sidebar_pages ->
  the_sidebar (gui_after (Store_dispatch a) g)
  = if String.eqb (page_of (at_emission a g)) (m_currentPage (the_sidebar g))
    then the_sidebar g
    else {| m_stackedWidget :=
              m_stackedWidget (the_sidebar g) ++
              [setCurrentWidget (HeavyPage (page_of (at_emission a g)))];
            m_pageMap := Sidebar_pages;
            m_currentPage := page_of (at_emission a g) |}.
Proof.
  intros (Hconn & Hm & Hk & Hcur & Hshown) Hk1.
  rewrite (gui_after_Store_dispatch a g Hconn).
  destruct (at_emission_frame a g) as [Hsb Hconn1].
  rewrite onStateChanged_on_pages; rewrite ?Hsb; auto.
Qed.

Lemma clicked_action_of (b : Button) :
  clicked b = Store_dispatch (action_of b).
Proof. destruct b; reflexivity. Qed.

Lemma known_page_at_click (b : Button) (g : Gui) :
  0 < map_count (page_of g) Sidebar_pages ->
  0 < map_count (page_of (at_emission (action_of b) g)) Sidebar_pages.
Proof.
  intros Hk. destruct b; cbn [action_of].
  - rewrite (proj1 (page_of_at_emission_page "filesSidebar" g)).
    apply Nat.lt_0_1.
  - rewrite (proj1 (page_of_at_emission_page "bugSidebar" g)).
    apply Nat.lt_0_1.
  - rewrite page_of_at_emission_profile by (left; reflexivity). exact Hk.
Qed.

Lemma ready_clicked (b : Button) (g : Gui) :
  ready g -> ready (gui_after (clicked b) g).
Proof.
  intros Hr. rewrite clicked_action_of.
  apply ready_Store_dispatch; [exact Hr | ].
  apply known_page_at_click. apply Hr.
Qed.

Lemma ready_click_all (bs : list Button) :
  forall g : Gui, ready g -> ready (gui_after (click_all bs) g).
Proof.
  induction bs as [ | b bs IH]; intros g Hr.
  - exact Hr.
  - cbn [click_all]. rewrite gui_after_seq. apply IH, ready_clicked, Hr.
Qed.

Lemma ready_Gui_ready : ready Gui_ready.
Proof.
  unfold ready. repeat split. apply Nat.lt_0_1.
Qed.

Lemma gui_after_main (bs : list Button) :
  gui_after (main bs) Gui_start = gui_after (click_all bs) Gui_ready.
Proof.
  unfold main. rewrite gui_after_seq. reflexivity.
Qed.

Lemma sidebar_after_show_click (g : Gui) :
  ready g ->
  the_sidebar (gui_after (clicked showProfileButton) g) = the_sidebar g.
Proof.
  intros Hr. rewrite clicked_action_of.
  rewrite sidebar_after_Store_dispatch;
    [ | exact Hr | apply known_page_at_click; apply Hr].
  cbn [action_of].
  rewrite page_of_at_emission_profile by (left; reflexivity).
  destruct Hr as (_ & _ & _ & Hcur & _).
  rewrite Hcur, String.eqb_refl. reflexivity.
Qed.

Lemma sidebar_after_page_click (b : Button) (g1 g2 : Gui) :
  is_pageButton b = true ->
  ready g1 -> ready g2 ->
  the_sidebar g1 = the_sidebar g2 ->
  the_sidebar (gui_after (clicked b) g1)
  = the_sidebar (gui_after (clicked b) g2).
Proof.
  intros Hb Hr1 Hr2 Hsb. rewrite clicked_action_of.
  rewrite !sidebar_after_Store_dispatch;
    try assumption; try (apply known_page_at_click; apply Hr1 || apply Hr2).
  destruct b; try discriminate Hb; cbn [action_of];
    rewrite !(proj1 (page_of_at_emission_page _ _)), Hsb; reflexivity.
Qed.

Lemma sidebar_click_all_filter (bs : list Button) :
  forall g1 g2 : Gui,
    ready g1 -> ready g2 ->
    the_sidebar g1 = the_sidebar g2 ->
    the_sidebar (gui_after (click_all bs) g1)
    = the_sidebar (gui_after (click_all (filter is_pageButton bs)) g2).
Proof.
  induction bs as [ | b bs IH]; intros g1 g2 Hr1 Hr2 Hsb.
  - exact Hsb.
  - cbn [click_all filter]. rewrite gui_after_seq.
    destruct (is_pageButton b) eqn:Hb.
    + cbn [click_all]. rewrite gui_after_seq.
      apply IH; try (apply ready_clicked; assumption).
      apply sidebar_after_page_click; assumption.
    + destruct b; try discriminate Hb.
      apply IH; [apply ready_clicked; assumption | assumption | ].
      rewrite sidebar_after_show_click by assumption. exact Hsb.
Qed.

Lemma visible_click_all (bs : list Button) :
  forall g : Gui,
    ready g ->
    visible_of (gui_after (click_all bs) g)
    = (visible_of g || existsb is_showProfileButton bs)%bool.
Proof.
  induction bs as [ | b bs IH]; intros g Hr.
  - cbn. rewrite Bool.orb_false_r. reflexivity.
  - cbn [click_all existsb]. rewrite gui_after_seq.
    rewrite (IH _ (ready_clicked b g Hr)).
    rewrite clicked_action_of.
    destruct Hr as (Hconn & _).
    rewrite (proj1 (proj2 (page_of_Store_dispatch (action_of b) g Hconn))).
    destruct b; cbn [action_of is_showProfileButton].
    + rewrite (proj2 (page_of_at_emission_page _ g)). reflexivity.
    + rewrite (proj2 (page_of_at_emission_page _ g)). reflexivity.
    + unfold Action_of_type. rewrite visible_of_at_emission_show.
      cbn. rewrite Bool.orb_true_r. reflexivity.
Qed.

Lemma emissions_click_all (bs : list Button) :
  forall g : Gui,
    ready g ->
    emissions (console (gui_after (click_all bs) g))
    = emissions (console g) + length bs.
Proof.
  induction bs as [ | b bs IH]; intros g Hr.
  - cbn. rewrite Nat.add_0_r. reflexivity.
  - cbn [click_all length]. rewrite gui_after_seq.
    rewrite (IH _ (ready_clicked b g Hr)).
    rewrite clicked_action_of.
    destruct Hr as (Hconn & _).
    destruct (page_of_Store_dispatch (action_of b) g Hconn)
      as (_ & _ & _ & _ & He).
    rewrite He. rewrite Nat.add_succ_r. reflexivity.
Qed.

Lemma emissions_after_dispatch (a : Action) (w : World) :
  emissions (events (after (dispatch a) w)) = S (emissions (events w)).
Proof.
  unfold dispatch. rewrite after_seq.
  unfold after at 1. unfold execState. rewrite run_perform.
  cbn [snd events].
  destruct (events_after_reduce a w) as [Hev Hnone].
  rewrite Hev, !emissions_app, Hnone. cbn. rewrite !Nat.add_0_r.
  rewrite Nat.add_1_r. reflexivity.
Qed.

(* ------------------------------------------------------------------ *)
(** ** Properties of the constructor, of a dispatch and of [main] *)

(** X8. Whatever the program looked like, the sidebar's constructor
    leaves it with the three pages in [m_pageMap], its slot appended to the
    connections, the store's content unchanged and [m_currentPage] equal to
    the store's active page.  The page is selected on the stacked widget when
    the store's page is one of the three; otherwise (an unknown or empty
    name) no page is selected at all. *)
Theorem Sidebar_new_syncs (g : Gui) :
  let g' := gui_after Sidebar_new g in
  m_pageMap (the_sidebar g') = Sidebar_pages
  /\ connections g' = connections g ++ [Sidebar_onStateChanged]
  /\ store_of g' = store_of g
  /\ m_currentPage (the_sidebar g') = page_of g'
  /\ shown (m_stackedWidget (the_sidebar g'))
     = if Nat.ltb 0 (map_count (page_of g) Sidebar_pages)
       then Some (HeavyPage (page_of g))
       else None.
Proof.
  cbv zeta. rewrite gui_after_Sidebar_new.
  rewrite store_of_onStateChanged, page_of_onStateChanged,
    currentPage_onStateChanged, connections_onStateChanged,
    onStateChanged_keeps_pageMap_aux.
  rewrite page_of_before_first_sync.
  repeat split.
  unfold gui_after, execState.
  destruct (string_dec (m_currentPage (the_sidebar (before_first_sync g)))
              (page_of (before_first_sync g))) as [E | N].
  - rewrite (run_onStateChanged_same _ E).
    rewrite page_of_before_first_sync in E. cbn in E. rewrite <- E.
    reflexivity.
  - rewrite (run_onStateChanged_other _ N).
    rewrite page_of_before_first_sync.
    cbn [snd the_sidebar before_first_sync m_pageMap m_stackedWidget].
    destruct (Nat.ltb 0 (map_count (page_of g) Sidebar_pages)) eqn:Hc.
    + apply Nat.ltb_lt in Hc. rewrite (Sidebar_pages_subscript _ Hc).
      reflexivity.
    + reflexivity.
Qed.

(** X9. In a program whose sidebar is connected and has seen the store's
    page, dispatching a [UserProfileShow] or [UserProfileHide] action
    leaves the sidebar object exactly as it was: the signal reaches the
    slot, and the slot makes no call on the stacked widget. *)
Theorem profile_dispatch_leaves_sidebar (u : Action) (g : Gui) :
  type u = UserProfileShow \/ type u = UserProfileHide ->
  connections g = [Sidebar_onStateChanged] ->
  m_currentPage (the_sidebar g) = page_of g ->
  the_sidebar (gui_after (Store_dispatch u) g) = the_sidebar g
  /\ switches (m_stackedWidget (the_sidebar (gui_after (Store_dispatch u) g)))
     = switches (m_stackedWidget (the_sidebar g))
  /\ emissions (console (gui_after (Store_dispatch u) g))
     = S (emissions (console g)).
Proof.
  intros Hu Hconn Hcur.
  destruct (page_of_Store_dispatch u g Hconn) as (_ & _ & _ & _ & He).
  rewrite He.
  rewrite (gui_after_Store_dispatch u g Hconn).
  unfold gui_after at 1 2. unfold execState.
  rewrite run_onStateChanged_same.
  - cbn [snd the_sidebar]. rewrite (proj1 (at_emission_frame u g)).
    repeat split.
  - rewrite (proj1 (at_emission_frame u g)), Hcur.
    symmetry. apply page_of_at_emission_profile, Hu.
Qed.

(** X10. After [main] has built the sidebar and served any sequence of
    clicks, the sidebar has seen the store's active page, that page is a key
    of [m_pageMap], and the latest [setCurrentWidget] call selected the
    widget built for it: the view shows the page the store names. *)
Theorem main_view_follows_store (bs : list Button) :
  let g := gui_after (main bs) Gui_start in
  m_currentPage (the_sidebar g) = page_of g
  /\ map_count (page_of g) (m_pageMap (the_sidebar g)) = 1
  /\ shown (m_stackedWidget (the_sidebar g)) = Some (HeavyPage (page_of g))
  /\ connections g = [Sidebar_onStateChanged].
Proof.
  cbv zeta. rewrite gui_after_main.
  destruct (ready_click_all bs Gui_ready ready_Gui_ready)
    as (Hconn & Hm & Hk & Hcur & Hshown).
  rewrite Hm. repeat split; try assumption.
  set (p := page_of (gui_after (click_all bs) Gui_ready)) in *.
  clearbody p. unfold Sidebar_pages in *. cbn [map_count] in *.
  destruct (String.compare p "bugSidebar"); try reflexivity;
    try (inversion Hk; fail).
  destruct (String.compare p "chatList"); try reflexivity;
    try (inversion Hk; fail).
  destruct (String.compare p "filesSidebar"); try reflexivity;
    inversion Hk.
Qed.

(** X11. After any sequence of clicks the profile is visible exactly when
    the profile button was clicked at least once: no button of [main]
    hides it again. *)
Theorem main_profile_visible_once_shown (bs : list Button) :
  visible_of (gui_after (main bs) Gui_start)
  = existsb is_showProfileButton bs.
Proof.
  rewrite gui_after_main.
  rewrite (visible_click_all bs Gui_ready ready_Gui_ready). reflexivity.
Qed.

(** X12. In [main] the constructor emits nothing and every click emits
    [stateChanged] once: after [n] clicks the history holds [n]
    emissions. *)
Theorem main_one_signal_per_click (bs : list Button) :
  emissions (console (gui_after (main bs) Gui_start)) = length bs.
Proof.
  rewrite gui_after_main.
  rewrite (emissions_click_all bs Gui_ready ready_Gui_ready). reflexivity.
Qed.

(** X13. Clicks on the profile button are invisible to the sidebar: the
    sidebar object (the calls made on its stacked widget included) ends up
    the same as if those clicks had never happened. *)
Theorem main_sidebar_ignores_profile_clicks (bs : list Button) :
  the_sidebar (gui_after (main bs) Gui_start)
  = the_sidebar (gui_after (main (filter is_pageButton bs)) Gui_start).
Proof.
  rewrite !gui_after_main.
  apply sidebar_click_all_filter;
    [apply ready_Gui_ready | apply ready_Gui_ready | reflexivity].
Qed.

(** X14. Dispatching the same action twice in a row never updates the
    view the second time: once the sidebar's slot is the connection, the
    second dispatch leaves the sidebar object as the first one left it. *)
Theorem same_action_twice_updates_once (a : Action) (g : Gui) :
  connections g = [Sidebar_onStateChanged] ->
  the_sidebar (gui_after (Store_dispatch a ;; Store_dispatch a) g)
  = the_sidebar (gui_after (Store_dispatch a) g).
Proof.
  intros Hconn. rewrite gui_after_seq.
  set (g1 := gui_after (Store_dispatch a) g).
  destruct (page_of_Store_dispatch a g Hconn)
    as (Hp1 & _ & Hconn1 & Hcur1 & _).
  fold g1 in Hp1, Hconn1, Hcur1.
  rewrite (gui_after_Store_dispatch a g1 Hconn1).
  unfold gui_after at 1. unfold execState.
  rewrite run_onStateChanged_same.
  - cbn [snd the_sidebar]. apply (at_emission_frame a g1).
  - rewrite (proj1 (at_emission_frame a g1)), Hcur1, <- Hp1.
    destruct (page_of_at_emission_cases a g1) as [E | (s & Ha & E)].
    + symmetry. exact E.
    + rewrite E, Hp1. subst a. apply (page_of_at_emission_page s g).
Qed.

(** X15. A sequence of [n] dispatches emits [stateChanged] [n] times,
    whatever the actions are and whether or not they change a field. *)
Theorem dispatch_all_emits_each_time (actions : list Action) (w : World) :
  emissions (events (after (dispatch_all actions) w))
  = emissions (events w) + length actions.
Proof.
  revert w. induction actions as [ | a rest IH]; intros w.
  - cbn. rewrite Nat.add_0_r. reflexivity.
  - cbn [dispatch_all length]. rewrite after_seq, IH.
    rewrite emissions_after_dispatch, Nat.add_succ_r. reflexivity.
Qed.

(** X16. Within a slice the later dispatch wins: a second page change
    overrides the first, and a show or hide overrides the show or hide
    before it, so the store ends as if only the later action had been
    dispatched. *)
Theorem later_dispatch_wins
    (w : World) (s1 s2 : string) (v1 v2 : bool) (p1 p2 : ActionPayload) :
  state_of (after (dispatch (change_page s1) ;; dispatch (change_page s2)) w)
  = state_of (after (dispatch (change_page s2)) w)
  /\ state_of (after (dispatch (profile_action v1 p1) ;;
                      dispatch (profile_action v2 p2)) w)
     = state_of (after (dispatch (profile_action v2 p2)) w).
Proof.
  rewrite !after_seq, !state_after_dispatch.
  split; [ | destruct v1, v2]; reflexivity.
Qed.

(* ------------------------------------------------------------------ *)
(** ** Instances for the program at concrete inputs *)

(** The slot run once more on the freshly built program. *)
Lemma onStateChanged_ignores_same_page_ready :
  m_currentPage (the_sidebar Gui_ready) = page_of Gui_ready
  /\ the_sidebar (gui_after onStateChanged Gui_ready) = the_sidebar Gui_ready
  /\ switches (m_stackedWidget
                 (the_sidebar (gui_after onStateChanged Gui_ready)))
     = 1.
Proof.
  split; [reflexivity | ].
  destruct (onStateChanged_ignores_same_page Gui_ready eq_refl)
    as (Hsb & Hsw & _).
  split; [exact Hsb | rewrite Hsw; reflexivity].
Defined.

(** The slot at the emission of a change to the files page. *)
Lemma onStateChanged_switches_to_files :
  let g := at_emission (change_page "filesSidebar") Gui_ready in
  m_currentPage (the_sidebar g) <> page_of g
  /\ 0 < map_count (page_of g) (m_pageMap (the_sidebar g))
  /\ exists page : QWidgetPtr,
       In (page_of g, page) (m_pageMap (the_sidebar g))
       /\ m_stackedWidget (the_sidebar (gui_after onStateChanged g))
          = m_stackedWidget (the_sidebar g) ++ [setCurrentWidget page]
       /\ shown (m_stackedWidget (the_sidebar (gui_after onStateChanged g)))
          = Some page
       /\ switches
            (m_stackedWidget (the_sidebar (gui_after onStateChanged g)))
          = S (switches (m_stackedWidget (the_sidebar g))).
Proof.
  cbv zeta.
  assert (Hne : m_currentPage
                  (the_sidebar
                     (at_emission (change_page "filesSidebar") Gui_ready))
                <> page_of
                     (at_emission (change_page "filesSidebar") Gui_ready))
    by (vm_compute; discriminate).
  assert (Hk : 0 < map_count
                     (page_of
                        (at_emission (change_page "filesSidebar") Gui_ready))
                     (m_pageMap
                        (the_sidebar
                           (at_emission (change_page "filesSidebar")
                              Gui_ready))))
    by (vm_compute; constructor).
  split; [exact Hne | split; [exact Hk | ]].
  exact (onStateChanged_switches_to_known_page _ Hne Hk).
Defined.

(** The slot at the emission of a change to a page the sidebar lacks. *)
Lemma onStateChanged_unknown_page_settings :
  let g := at_emission (change_page "settings") Gui_ready in
  m_currentPage (the_sidebar g) <> page_of g
  /\ map_count (page_of g) (m_pageMap (the_sidebar g)) = 0
  /\ m_stackedWidget (the_sidebar (gui_after onStateChanged g))
     = m_stackedWidget (the_sidebar g)
  /\ m_currentPage (the_sidebar (gui_after onStateChanged g)) = "settings"
  /\ shown (m_stackedWidget (the_sidebar (gui_after onStateChanged g)))
     = Some (HeavyPage "chatList").
Proof.
  cbv zeta.
  assert (Hne : m_currentPage
                  (the_sidebar (at_emission (change_page "settings") Gui_ready))
                <> page_of (at_emission (change_page "settings") Gui_ready))
    by (vm_compute; discriminate).
  split; [exact Hne | split; [reflexivity | ]].
  destruct (onStateChanged_unknown_page _ Hne eq_refl) as (Hst & Hcur & _).
  rewrite Hst, Hcur. repeat split.
Defined.

(** [{UserProfileHide}] dispatched on the freshly built program. *)
Lemma profile_dispatch_leaves_sidebar_hide :
  let u := Action_of_type UserProfileHide in
  (type u = UserProfileShow \/ type u = UserProfileHide)
  /\ connections Gui_ready = [Sidebar_onStateChanged]
  /\ m_currentPage (the_sidebar Gui_ready) = page_of Gui_ready
  /\ the_sidebar (gui_after (Store_dispatch u) Gui_ready)
     = the_sidebar Gui_ready.
Proof.
  cbv zeta.
  split; [right; reflexivity | split; [reflexivity | split; [reflexivity | ]]].
  apply (profile_dispatch_leaves_sidebar (Action_of_type UserProfileHide)
           Gui_ready (or_intror eq_refl) eq_refl eq_refl).
Defined.

(** The bugs button clicked twice on the freshly built program. *)
Lemma same_action_twice_bugs :
  let a := change_page "bugSidebar" in
  connections Gui_ready = [Sidebar_onStateChanged]
  /\ the_sidebar (gui_after (Store_dispatch a ;; Store_dispatch a) Gui_ready)
     = the_sidebar (gui_after (Store_dispatch a) Gui_ready).
Proof.
  cbv zeta. split; [reflexivity | ].
  apply (same_action_twice_updates_once (change_page "bugSidebar") Gui_ready).
  reflexivity.
Defined.
